(** * The STL allocator wrapper of [allocwrap.hpp], and its demo

    [DECLARE_STL_ALLOCATOR_WRAPPER(CLASS_TYPE, NATIVE_INSTANCE_PTR)] expands
    to a class template [CLASS_TYPE<T>] whose member functions forward to a
    native allocator object offering [malloc], [free] and [max_size].  This
    file embeds that class template, member function by member function, as
    state-passing functions over the state of the native allocator, and
    proves the properties stated for it. *)

From Stdlib Require Import NArith ZArith Lia List String Sorted.
From stdpp Require Import base gmap list strings pretty.

Local Open Scope N_scope.

(** ** [std::size_t] and pointers *)

(** The width of [std::size_t] in bits. *)
Class Platform := { size_bits : positive }.

Definition LP64 : Platform := {| size_bits := 64 |}.
Definition ILP32 : Platform := {| size_bits := 32 |}.

(** A [size_type] value or an address is a number below [2 ^ size_bits]. *)
Definition SIZE_MAX `{Platform} : N := 2 ^ N.pos size_bits - 1.

(** Conversion to [std::size_t]: reduction modulo [2 ^ size_bits]. *)
Definition size_wrap `{Platform} (x : N) : N := x mod 2 ^ N.pos size_bits.

(** [a * b] on two [std::size_t] operands. *)
Definition size_mul `{Platform} (a b : N) : N := size_wrap (a * b).

Definition NULL : N := 0.

(** ** Outcomes of a call *)

Inductive exception : Type :=
| bad_alloc.

(** A call returns, leaves by an exception, or has no defined behaviour. *)
Inductive outcome (A : Type) : Type :=
| Returned (a : A)
| Thrown (e : exception)
| Undefined.

Arguments Returned {A} a.
Arguments Thrown {A} e.
Arguments Undefined {A}.

(** Computations over a state [W]. *)
Definition M (W A : Type) : Type := W -> outcome A * W.

Definition ret {W A} (a : A) : M W A := fun w => (Returned a, w).

Definition throw {W A} (e : exception) : M W A := fun w => (Thrown e, w).

Definition undefined {W A} : M W A := fun w => (Undefined, w).

Definition bind {W A B} (c : M W A) (k : A -> M W B) : M W B :=
  fun w =>
    match c w with
    | (Returned a, w') => k a w'
    | (Thrown e, w') => (Thrown e, w')
    | (Undefined, w') => (Undefined, w')
    end.

Declare Scope call_scope.
Delimit Scope call_scope with call.
Notation "x <- c ;; k" := (bind c (fun x => k))
  (at level 100, c at next level, right associativity) : call_scope.
Notation "c ;;; k" := (bind c (fun _ => k))
  (at level 100, right associativity) : call_scope.

Definition result_of {W A} (r : outcome A * W) : outcome A := fst r.
Definition state_after {W A} (r : outcome A * W) : W := snd r.

(** ** The native allocator (allocwrap.hpp, lines 11-20) *)

Module Native.

(** The three member functions the wrapped allocator must provide, over
    the allocator's own state [S]:
    [void* malloc(size_t)], [void free(void* )], [size_t max_size() const].
    The first two may change the state; [max_size], being [const], reads
    it. *)
Class Allocator (S : Type) := {
  malloc : N -> S -> N * S;
  free : N -> S -> S;
  max_size : S -> N
}.

End Native.

(** ** The element type [T] *)

(** What the wrapper uses of its element type: [sizeof(value_type)], the
    copy constructor called by the placement new of [construct] and the
    destructor called by [destroy].  Both run user code, which may itself use
    the native allocator (a string copying its buffer), so they act on its
    state. *)
Class ValueType (S T : Type) := {
  sizeof : positive;
  copy_constructor : T -> S -> outcome T * S;
  destructor : T -> S -> outcome unit * S
}.

Arguments sizeof S T {_}.

(** An element type whose copy constructor copies the value and whose
    destructor does nothing ([int], [char], a plain struct). *)
Definition trivial_type (S T : Type) (size : positive) : ValueType S T :=
  {| sizeof := size;
     copy_constructor := fun v s => (Returned v, s);
     destructor := fun _ s => (Returned tt, s) |}.

(** ** The state the wrapper acts on *)

(** The native allocator behind [NATIVE_INSTANCE_PTR], and the objects of
    type [T] alive at each address. *)
Record world (S T : Type) : Type := World {
  native : S;
  objects : gmap N T
}.

Arguments World {S T} native objects.
Arguments native {S T} w.
Arguments objects {S T} w.

(** Reading [*p]. *)
Definition read {S T} (p : N) (w : world S T) : option T := objects w !! p.

(** ** The generated class [CLASS_TYPE<T>] (allocwrap.hpp, lines 65-106) *)

(** The class has no data member. *)
Record CLASS_TYPE (T : Type) : Type := mk_CLASS_TYPE { }.

Arguments mk_CLASS_TYPE {T}.

Module Wrapper.
Section Members.

Context {platform : Platform} {S T : Type}
  {NATIVE_INSTANCE_PTR : Native.Allocator S} {value_type : ValueType S T}.

Local Open Scope call_scope.

Abbreviation W := (world S T).

(** [(NATIVE_INSTANCE_PTR)->malloc(bytes)] *)
Definition native_malloc (bytes : N) : M W N :=
  fun w =>
    let (ptr, s) := Native.malloc bytes (native w) in
    (Returned ptr, World s (objects w)).

(** [(NATIVE_INSTANCE_PTR)->free(p)] *)
Definition native_free (p : N) : M W unit :=
  fun w => (Returned tt, World (Native.free p (native w)) (objects w)).

(** [(NATIVE_INSTANCE_PTR)->max_size()] *)
Definition native_max_size : M W N :=
  fun w => (Returned (Native.max_size (native w)), w).

(** User code of the element type, run on the native allocator's state. *)
Definition user_code {A} (f : S -> outcome A * S) : M W A :=
  fun w => let (r, s) := f (native w) in (r, World s (objects w)).

(** line 79: [CLASS_TYPE() {}] *)
Definition default_constructor : M W (CLASS_TYPE T) := ret mk_CLASS_TYPE.

(** line 80: [CLASS_TYPE(const CLASS_TYPE& other) {}] *)
Definition copy_construct (other : CLASS_TYPE T) : M W (CLASS_TYPE T) :=
  ret mk_CLASS_TYPE.

(** line 81: [template <typename U> CLASS_TYPE(const CLASS_TYPE<U>& other) {}] *)
Definition rebind_construct {U : Type} (other : CLASS_TYPE U)
  : M W (CLASS_TYPE T) :=
  ret mk_CLASS_TYPE.

(** line 82: [~CLASS_TYPE() {}] *)
Definition destruct_ (this : CLASS_TYPE T) : M W unit := ret tt.

(** line 83: [operator==] *)
Definition operator_eq (this other : CLASS_TYPE T) : M W bool := ret true.

(** line 84: [operator!=] *)
Definition operator_ne (this other : CLASS_TYPE T) : M W bool := ret false.

(** line 85: [operator=], returning [*this] *)
Definition operator_assign (this other : CLASS_TYPE T) : M W (CLASS_TYPE T) :=
  ret this.

(** line 86: [template <typename U> operator=], returning [*this] *)
Definition operator_assign_rebind {U : Type} (this : CLASS_TYPE T)
  (other : CLASS_TYPE U) : M W (CLASS_TYPE T) :=
  ret this.

(** lines 87-88: [address(x)] is [&x]; a reference is the address of its
    referent. *)
Definition address (this : CLASS_TYPE T) (x : N) : M W N := ret x.

(** lines 89-93 *)
Definition allocate (this : CLASS_TYPE T) (n : N) (hint : N) : M W N :=
  ptr <- native_malloc (size_mul n (N.pos (sizeof S T))) ;;
  if NULL =? ptr then throw bad_alloc else ret ptr.

(** lines 94-96: the statement [n;] has no effect. *)
Definition deallocate (this : CLASS_TYPE T) (p : N) (n : N) : M W unit :=
  native_free p.

(** lines 97-99 *)
Definition max_size (this : CLASS_TYPE T) : M W N :=
  bytes <- native_max_size ;;
  ret (bytes / N.pos (sizeof S T)).

(** lines 100-102: [::new (p) value_type(val)] runs the copy constructor of
    [T] and the object it makes lives at [p], in place of any object that
    was there.  That [p] points to storage fit for a [T] is the caller's
    business; the code does not check it. *)
Definition construct (this : CLASS_TYPE T) (p : N) (val : T) : M W unit :=
  x <- user_code (copy_constructor val) ;;
  fun w => (Returned tt, World (native w) (<[p := x]> (objects w))).

(** lines 103-105: [p->~value_type()] ends the lifetime of the object at
    [p] and runs the destructor of [T] on it; with no object of type [T]
    at [p] the call has no defined behaviour. *)
Definition destroy (this : CLASS_TYPE T) (p : N) : M W unit :=
  fun w =>
    match objects w !! p with
    | Some x =>
        user_code (destructor x) (World (native w) (delete p (objects w)))
    | None => undefined w
    end.

(** A call of one member function of [CLASS_TYPE<T>], with its arguments. *)
Inductive member_call : Type :=
| call_default_constructor
| call_copy_construct (other : CLASS_TYPE T)
| call_rebind_construct (U : Type) (other : CLASS_TYPE U)
| call_destruct (this : CLASS_TYPE T)
| call_operator_eq (this other : CLASS_TYPE T)
| call_operator_ne (this other : CLASS_TYPE T)
| call_operator_assign (this other : CLASS_TYPE T)
| call_operator_assign_rebind (U : Type) (this : CLASS_TYPE T)
    (other : CLASS_TYPE U)
| call_address (this : CLASS_TYPE T) (x : N)
| call_allocate (this : CLASS_TYPE T) (n hint : N)
| call_deallocate (this : CLASS_TYPE T) (p n : N)
| call_max_size (this : CLASS_TYPE T)
| call_construct (this : CLASS_TYPE T) (p : N) (val : T)
| call_destroy (this : CLASS_TYPE T) (p : N).

(** The state a member call leaves behind. *)
Definition invoke (c : member_call) (w : W) : W :=
  match c with
  | call_default_constructor => state_after (default_constructor w)
  | call_copy_construct other => state_after (copy_construct other w)
  | call_rebind_construct U other => state_after (rebind_construct other w)
  | call_destruct this => state_after (destruct_ this w)
  | call_operator_eq this other => state_after (operator_eq this other w)
  | call_operator_ne this other => state_after (operator_ne this other w)
  | call_operator_assign this other =>
      state_after (operator_assign this other w)
  | call_operator_assign_rebind U this other =>
      state_after (operator_assign_rebind this other w)
  | call_address this x => state_after (address this x w)
  | call_allocate this n hint => state_after (allocate this n hint w)
  | call_deallocate this p n => state_after (deallocate this p n w)
  | call_max_size this => state_after (max_size this w)
  | call_construct this p val => state_after (construct this p val w)
  | call_destroy this p => state_after (destroy this p w)
  end.

(** The four members that obtain, release, fill or empty storage. *)
Definition storage_member (c : member_call) : bool :=
  match c with
  | call_allocate _ _ _ | call_deallocate _ _ _
  | call_construct _ _ _ | call_destroy _ _ => true
  | _ => false
  end.

End Members.

Arguments member_call T : clear implicits.

End Wrapper.

(** ** Native allocators used to observe the wrapper *)

(** One call received by a native allocator. *)
Inductive native_call : Type :=
| CalledMalloc (bytes : N)
| CalledFree (p : N).

(** Any native allocator, made to record the calls that reach it. *)
Definition recording {S : Type} (A : Native.Allocator S)
  : Native.Allocator (S * list native_call) :=
  {| Native.malloc := fun bytes '(s, log) =>
       let (ptr, s') := Native.malloc bytes s in
       (ptr, (s', log ++ [CalledMalloc bytes]));
     Native.free := fun p '(s, log) =>
       (Native.free p s, log ++ [CalledFree p]);
     Native.max_size := fun '(s, _) => Native.max_size s |}.

(** [outstanding] is the number of allocations of a native allocator that
    were handed out and not yet given back: a [malloc] that returns storage
    adds one, a [free] of storage takes one away. *)
Record tracks_outstanding {S : Type} (A : Native.Allocator S)
  (outstanding : S -> Z) : Prop := {
  malloc_counted : forall bytes s,
    outstanding (snd (Native.malloc bytes s)) =
    if NULL =? fst (Native.malloc bytes s) then outstanding s
    else (outstanding s + 1)%Z;
  free_counted : forall p s,
    p <> NULL -> outstanding (Native.free p s) = (outstanding s - 1)%Z
}.

(** Any native allocator, made to count its outstanding allocations. *)
Definition counting {S : Type} (A : Native.Allocator S)
  : Native.Allocator (S * Z) :=
  {| Native.malloc := fun bytes '(s, count) =>
       let (ptr, s') := Native.malloc bytes s in
       (ptr, (s', if NULL =? ptr then count else (count + 1)%Z));
     Native.free := fun p '(s, count) =>
       (Native.free p s, if NULL =? p then count else (count - 1)%Z);
     Native.max_size := fun '(s, _) => Native.max_size s |}.

(** ** The demo (demo.cpp) *)

(** The C library heap behind [::malloc] and [::free]. *)
Module libc.

Class Heap (H : Type) := {
  malloc : N -> H -> N * H;
  free : N -> H -> H
}.

End libc.

(** A heap that hands out fresh addresses one after the other and never
    runs out; its state is the last address in use. *)
Definition bump_heap : libc.Heap N :=
  {| libc.malloc := fun bytes top => (top + 1, top + 1 + bytes);
     libc.free := fun _ top => top |}.

(** A heap with nothing left to give. *)
Definition exhausted_heap : libc.Heap unit :=
  {| libc.malloc := fun _ h => (NULL, h);
     libc.free := fun _ h => h |}.

(** lines 8-28: [class MyDummyAllocator]; the literal [0x80000000] is
    converted to [std::size_t]. *)
Definition MyDummyAllocator `{Platform} {H : Type} (heap : libc.Heap H)
  : Native.Allocator H :=
  {| Native.malloc := fun bytes h => libc.malloc bytes h;
     Native.free := fun bulk h => libc.free bulk h;
     Native.max_size := fun _ => size_wrap 0x80000000 |}.

Module Demo.
Section Main.

Context {platform : Platform} {H : Type} (heap : libc.Heap H).

Local Open Scope call_scope.

(** line 30: [MyDummyAllocator g_alloc;] *)
Definition g_alloc : Native.Allocator H := MyDummyAllocator heap.

(** line 50: [mystring], by its characters; the storage a string takes for
    them is not followed. *)
Definition mystring : Type := string.

(** An element of [MyMap<int, mystring>]: [std::pair<const int, mystring>]. *)
Definition entry : Type := (Z * mystring)%type.

(** The element type the map rebinds [MyStlAllocator] to is its node type,
    which holds one entry; its size is the library's business. *)
Context (node : ValueType H entry).

Abbreviation W := (world H entry).

(** line 32: [MyStlAllocator], the wrapper declared for [&g_alloc], at the
    type the map rebinds it to. *)
Definition MyStlAllocator_allocate
  : CLASS_TYPE entry -> N -> N -> M W N :=
  @Wrapper.allocate platform H entry g_alloc node.

(** [std::less<int>], the default comparison of [MyMap] (line 45). *)
Definition less (a b : Z) : bool := (a <? b)%Z.

(** Modelled from the spec: [std::map], the ordered key-value container of
    the host library, is no part of the repository; it is modelled by its
    contract.  A map is the list of its entries in the order [begin()] to
    [end()] visits them, and a key is present when an entry has a key that
    is neither less nor greater. *)
Definition map_contains (k : Z) (m : list entry) : bool :=
  existsb (fun e => negb (less k (fst e)) && negb (less (fst e) k)) m.

(** Modelled from the spec: the place [std::map] gives a new entry, before
    the first entry with a greater key; a map that has the key is left as it
    is. *)
Fixpoint ordered_insert (e : entry) (m : list entry) : list entry :=
  match m with
  | [] => [e]
  | e' :: m' =>
      if less (fst e) (fst e') then e :: m
      else if less (fst e') (fst e) then e' :: ordered_insert e m'
      else m
  end.

(** The keys of a map, in iteration order, ascend strictly. *)
Definition ascending (m : list entry) : Prop :=
  StronglySorted Z.lt (map fst m).

(** Modelled from the spec: [std::map::insert].  A map that has the key is
    left as it is; otherwise storage for one node is obtained from the
    rebound allocator and the entry takes its place. *)
Definition map_insert (alloc : CLASS_TYPE entry) (e : entry) (m : list entry)
  : M W (list entry) :=
  if map_contains (fst e) m then ret m
  else
    MyStlAllocator_allocate alloc 1 NULL ;;;
    ret (ordered_insert e m).





End Main.
End Demo.

(** ** Concrete instances *)

(** Four-byte and eight-byte integers as element types. *)
Definition int_type (S : Type) : ValueType S Z := trivial_type S Z 4.
Definition int64_type (S : Type) : ValueType S Z := trivial_type S Z 8.

(** [MyDummyAllocator] on a 64-bit platform, over the heap that never runs
    out and over the one with nothing left. *)
Definition roomy_alloc : Native.Allocator N :=
  @MyDummyAllocator LP64 N bump_heap.
Definition failing_alloc : Native.Allocator unit :=
  @MyDummyAllocator LP64 unit exhausted_heap.

(** A world with the heap top at 4096 and no object alive. *)
Definition roomy_world : world N Z := World 4096 ∅.
Definition failing_world : world unit Z := World tt ∅.
Definition recorded_world : world (N * list native_call) Z :=
  World (4096, []) ∅.
Definition counted_world : world (N * Z) Z := World (4096, 0%Z) ∅.

(** A platform with a 16-bit [std::size_t]. *)
Definition LP16 : Platform := {| size_bits := 16 |}.

(** A heap that answers a request for no bytes with the null pointer, as the
    C library may, and otherwise never runs out. *)
Definition zero_null_heap : libc.Heap N :=
  {| libc.malloc := fun bytes top =>
       if bytes =? 0 then (NULL, top) else (top + 1, top + 1 + bytes);
     libc.free := fun _ top => top |}.

(** An element type whose copy constructor fails for want of memory. *)
Definition failing_copy_type (S T : Type) (size : positive) : ValueType S T :=
  {| sizeof := size;
     copy_constructor := fun _ s => (Thrown bad_alloc, s);
     destructor := fun _ s => (Returned tt, s) |}.

(** * Properties *)

(** ** Arithmetic of [std::size_t] *)

Lemma size_mul_exact `{Platform} (a b : N) :
  a * b <= SIZE_MAX -> size_mul a b = a * b.
Proof.
  unfold size_mul, size_wrap, SIZE_MAX. intros Hfit.
  apply N.mod_small.
  assert (0 < 2 ^ N.pos size_bits) by (apply N.neq_0_lt_0, N.pow_nonzero; lia).
  lia.
Qed.

Lemma fits_iff_quotient `{Platform} (n size : N) :
  0 < size -> (n * size <= SIZE_MAX <-> n <= SIZE_MAX / size).
Proof.
  intros Hsize. split; intros Hle.
  - apply N.div_le_lower_bound; lia.
  - pose proof (N.Div0.mul_div_le SIZE_MAX size). nia.
Qed.

(** ** The members of the wrapper *)

Section Unfolding.

Context {platform : Platform} {S T : Type}.

Lemma allocate_unfold (A : Native.Allocator S) (VT : ValueType S T)
  (this : CLASS_TYPE T) (n hint : N) (w : world S T) :
  Wrapper.allocate this n hint w =
  (if NULL =? fst (Native.malloc (size_mul n (N.pos (sizeof S T))) (native w))
   then Thrown bad_alloc
   else Returned
          (fst (Native.malloc (size_mul n (N.pos (sizeof S T))) (native w))),
   World (snd (Native.malloc (size_mul n (N.pos (sizeof S T))) (native w)))
     (objects w)).
Proof.
  unfold Wrapper.allocate, bind, Wrapper.native_malloc.
  destruct (Native.malloc _ (native w)) as [ptr s]; simpl.
  destruct ptr; reflexivity.
Qed.

End Unfolding.

Section Properties.

Context {platform : Platform} {S T : Type}.

Local Open Scope call_scope.

(** C1.  For every element type [T] and every count [n], [allocate(n)] makes
    one request to the native allocator, a [malloc] of [n * sizeof(T)] bytes,
    the product of the two [size_type] operands of line 90; the native
    allocator is left in the state that [malloc] leaves.  Whenever
    [n * sizeof(T)] is a [size_type] value, the bytes requested are that
    number. *)
Theorem allocate_requests_n_times_sizeof (A : Native.Allocator S)
  (VT : ValueType (S * list native_call) T)
  (this : CLASS_TYPE T) (n hint : N) (w : world (S * list native_call) T) :
  let size := N.pos (sizeof (S * list native_call) T) in
  let after :=
    state_after (@Wrapper.allocate platform _ T (recording A) VT this n hint w)
  in
  snd (native after) = snd (native w) ++ [CalledMalloc (size_mul n size)]
  /\ fst (native after) =
     snd (Native.malloc (size_mul n size) (fst (native w)))
  /\ (n * size <= SIZE_MAX -> size_mul n size = n * size).
Proof.
  intros size after. subst after. rewrite allocate_unfold.
  unfold state_after; simpl.
  destruct (native w) as [s log]; simpl.
  fold size.
  destruct (Native.malloc (size_mul n size) s) as [ptr s']; simpl.
  repeat split. apply size_mul_exact.
Qed.

(** C2.  When the native [malloc] returns the null pointer, [allocate(n)]
    throws [std::bad_alloc]; when it returns any other pointer,
    [allocate(n)] returns that pointer and throws nothing. *)
Theorem allocate_null_throws_bad_alloc (A : Native.Allocator S)
  (VT : ValueType S T) (this : CLASS_TYPE T) (n hint : N) (w : world S T)
  (ptr : N) (s : S) :
  Native.malloc (size_mul n (N.pos (sizeof S T))) (native w) = (ptr, s) ->
  (ptr = NULL ->
   result_of (Wrapper.allocate this n hint w) = Thrown bad_alloc)
  /\ (ptr <> NULL ->
      result_of (Wrapper.allocate this n hint w) = Returned ptr).
Proof.
  intros Hmalloc. rewrite allocate_unfold, Hmalloc. unfold result_of; simpl.
  split.
  - intros ->. reflexivity.
  - intros Hptr. destruct ptr as [| q]; [contradiction | reflexivity].
Qed.

(** C3.  [max_size()] returns the native [max_size()] divided by
    [sizeof(T)], rounded down: the largest count whose bytes do not exceed
    the native maximum. *)
Theorem max_size_is_truncated_quotient (A : Native.Allocator S)
  (VT : ValueType S T) (this : CLASS_TYPE T) (w : world S T) :
  let bytes := Native.max_size (native w) in
  let size := N.pos (sizeof S T) in
  Wrapper.max_size this w = (Returned (bytes / size), w)
  /\ bytes / size * size <= bytes < (bytes / size + 1) * size.
Proof.
  intros bytes size. split; [reflexivity |].
  pose proof (N.Div0.mul_div_le bytes size).
  pose proof (N.mul_succ_div_gt bytes size ltac:(subst size; lia)).
  lia.
Qed.

(** C5.  [deallocate(p, n)] makes one request to the native allocator, a
    [free] of the pointer [p], and the call is the same for any two values
    of [n]. *)
Theorem deallocate_forwards_pointer_ignores_n (A : Native.Allocator S)
  (VT : ValueType (S * list native_call) T)
  (this : CLASS_TYPE T) (p n n' : N) (w : world (S * list native_call) T) :
  let r := @Wrapper.deallocate _ T (recording A) this p n w in
  result_of r = Returned tt
  /\ snd (native (state_after r)) = snd (native w) ++ [CalledFree p]
  /\ fst (native (state_after r)) = Native.free p (fst (native w))
  /\ objects (state_after r) = objects w
  /\ @Wrapper.deallocate _ T (recording A) this p n' w = r.
Proof.
  unfold Wrapper.deallocate, Wrapper.native_free, result_of, state_after.
  simpl. destruct (native w) as [s log]; simpl.
  repeat split.
Qed.

(** C4.  Any two instances compare equal.  For two instances for [U],
    [operator==] returns [true] and [operator!=] returns [false].  An
    instance for [U] and an instance for [V] are compared after the
    constructor of line 81 converts the right one to the type of the left
    one, with the same two answers whichever of them is on the left.  No
    comparison changes the state. *)
Theorem rebound_instances_compare_equal (U V : Type)
  (a a0 : CLASS_TYPE U) (b : CLASS_TYPE V)
  (wu : world S U) (wv : world S V) :
  Wrapper.operator_eq a a0 wu = (Returned true, wu)
  /\ Wrapper.operator_ne a a0 wu = (Returned false, wu)
  /\ (b' <- Wrapper.rebind_construct b ;; Wrapper.operator_eq a b') wu
     = (Returned true, wu)
  /\ (b' <- Wrapper.rebind_construct b ;; Wrapper.operator_ne a b') wu
     = (Returned false, wu)
  /\ (a' <- Wrapper.rebind_construct a ;; Wrapper.operator_eq b a') wv
     = (Returned true, wv)
  /\ (a' <- Wrapper.rebind_construct a ;; Wrapper.operator_ne b a') wv
     = (Returned false, wv).
Proof. repeat split. Qed.

(** C6.  Default construction, copy construction, construction from an
    instance for another element type, destruction and both assignments
    return at once and leave the native allocator, whatever it is, in the
    state it was in.  Every member call other than [allocate], [deallocate],
    [construct] and [destroy] leaves it so. *)
Theorem lifecycle_members_leave_allocator_alone (A : Native.Allocator S)
  (VT : ValueType S T) (U : Type) (this other : CLASS_TYPE T)
  (other' : CLASS_TYPE U) (w : world S T) :
  Wrapper.default_constructor w = (Returned mk_CLASS_TYPE, w)
  /\ Wrapper.copy_construct other w = (Returned mk_CLASS_TYPE, w)
  /\ Wrapper.rebind_construct (T := T) other' w = (Returned mk_CLASS_TYPE, w)
  /\ Wrapper.destruct_ this w = (Returned tt, w)
  /\ Wrapper.operator_assign this other w = (Returned this, w)
  /\ Wrapper.operator_assign_rebind this other' w = (Returned this, w)
  /\ (forall c : Wrapper.member_call T,
        Wrapper.storage_member c = false -> Wrapper.invoke c w = w).
Proof.
  repeat split.
  intros c Hc. destruct c; simpl in Hc; try discriminate; reflexivity.
Qed.


(** C8.  [construct(p, v)] runs the copy constructor of [T] and nothing else
    on the native allocator, so it allocates nothing itself, and with a copy
    constructor that yields a copy of [v] the object read at [p] afterwards
    is [v].  [destroy(p)] runs the destructor of [T] on that object and
    nothing else on the native allocator, so no storage is released, and no
    object is left at [p].  A further [construct(p, v')] returns and the
    object read at [p] is [v'], whatever [v] was.  Objects at other
    addresses stay as they were throughout. *)
Theorem construct_read_destroy_reconstruct (A : Native.Allocator S)
  (VT : ValueType S T) (this : CLASS_TYPE T) (p : N) (v v' : T)
  (w : world S T) (s1 s2 s3 : S) :
  copy_constructor v (native w) = (Returned v, s1) ->
  destructor v s1 = (Returned tt, s2) ->
  copy_constructor v' s2 = (Returned v', s3) ->
  let r1 := Wrapper.construct this p v w in
  let r2 := Wrapper.destroy this p (state_after r1) in
  let r3 := Wrapper.construct this p v' (state_after r2) in
  (result_of r1 = Returned tt
   /\ native (state_after r1) = snd (copy_constructor v (native w))
   /\ read p (state_after r1) = Some v)
  /\ (result_of r2 = Returned tt
      /\ native (state_after r2) = snd (destructor v (native (state_after r1)))
      /\ read p (state_after r2) = None)
  /\ (result_of r3 = Returned tt
      /\ native (state_after r3) =
         snd (copy_constructor v' (native (state_after r2)))
      /\ read p (state_after r3) = Some v')
  /\ (forall q, q <> p ->
      read q (state_after r1) = read q w
      /\ read q (state_after r2) = read q w
      /\ read q (state_after r3) = read q w).
Proof.
  intros Hcopy Hdtor Hcopy' r1 r2 r3.
  assert (E1 : r1 = (Returned tt, World s1 (<[p := v]> (objects w)))).
  { subst r1. unfold Wrapper.construct, bind, Wrapper.user_code.
    rewrite Hcopy. reflexivity. }
  assert (E2 : r2 = (Returned tt, World s2 (delete p (<[p := v]> (objects w))))).
  { subst r2. rewrite E1. unfold Wrapper.destroy, state_after; simpl.
    rewrite lookup_insert_eq. unfold Wrapper.user_code; simpl.
    rewrite Hdtor. reflexivity. }
  assert (E3 : r3 = (Returned tt,
                     World s3 (<[p := v']> (delete p (<[p := v]> (objects w)))))).
  { subst r3. rewrite E2. unfold Wrapper.construct, bind, Wrapper.user_code.
    unfold state_after; simpl. rewrite Hcopy'. reflexivity. }
  rewrite E3, E2, E1. unfold result_of, state_after, read; simpl.
  rewrite Hcopy, Hdtor, Hcopy'; simpl.
  rewrite !lookup_insert_eq, lookup_delete_eq.
  repeat split;
    rewrite ?lookup_insert_ne, ?lookup_delete_ne, ?lookup_insert_ne by auto;
    reflexivity.
Qed.

(** C10.  [allocate] multiplies in [size_type] and checks neither the
    product nor [n] against [max_size()]: for a count [n] above
    [SIZE_MAX / sizeof(T)] the one request it makes is for the product
    reduced modulo [2 ^ size_bits], fewer bytes than [n] elements take, the
    count is above whatever [max_size()] returns, and [allocate] still
    returns the pointer that [malloc] gives. *)
Theorem allocate_request_wraps_on_overflow (A : Native.Allocator S)
  (VT : ValueType (S * list native_call) T)
  (this : CLASS_TYPE T) (n hint : N) (w : world (S * list native_call) T) :
  let size := N.pos (sizeof (S * list native_call) T) in
  let r := @Wrapper.allocate platform _ T (recording A) VT this n hint w in
  let ptr := fst (Native.malloc (size_mul n size) (fst (native w))) in
  SIZE_MAX / size < n ->
  snd (native (state_after r)) =
    snd (native w) ++ [CalledMalloc ((n * size) mod 2 ^ N.pos size_bits)]
  /\ (n * size) mod 2 ^ N.pos size_bits < n * size
  /\ (Native.max_size (fst (native w)) <= SIZE_MAX ->
      exists m, result_of (@Wrapper.max_size _ T (recording A) VT this w)
                = Returned m /\ m < n)
  /\ (ptr <> NULL -> result_of r = Returned ptr).
Proof.
  intros size r ptr Hn. subst r ptr. rewrite allocate_unfold.
  unfold result_of, state_after; simpl.
  destruct (native w) as [s log]; simpl. fold size.
  change (size_mul n size) with ((n * size) mod 2 ^ N.pos size_bits).
  destruct (Native.malloc _ s) as [q s']; simpl.
  assert (Hsize : 0 < size) by (subst size; lia).
  assert (Hpow : 2 ^ N.pos size_bits <> 0) by (apply N.pow_nonzero; lia).
  assert (Hover : SIZE_MAX < n * size).
  { apply N.lt_nge. intros Hle. apply fits_iff_quotient in Hle; lia. }
  repeat split.
  - pose proof (N.mod_upper_bound (n * size) _ Hpow).
    unfold SIZE_MAX in Hover. lia.
  - intros Hmax. eexists. split; [reflexivity |].
    fold size. eapply N.le_lt_trans; [| exact Hn].
    apply N.Div0.div_le_mono. exact Hmax.
  - intros Hq. destruct q as [| q]; [contradiction | reflexivity].
Qed.

End Properties.

(** ** The demo *)

Section DemoProperties.

Context {platform : Platform} {H : Type} (heap : libc.Heap H)
  (node : ValueType H Demo.entry).

Local Open Scope call_scope.

Lemma ordered_insert_keys (e : Demo.entry) (m : list Demo.entry) (k : Z) :
  In k (map fst (Demo.ordered_insert e m)) -> k = fst e \/ In k (map fst m).
Proof.
  induction m as [| e' m IH]; simpl.
  - intros [<- | []]. now left.
  - unfold Demo.less.
    destruct (fst e <? fst e')%Z; [| destruct (fst e' <? fst e)%Z]; simpl.
    + intros [<- | Hin]; [now left | now right].
    + intros [<- | Hin]; [now right; left |].
      destruct (IH Hin) as [-> | Hin']; [now left | now right; right].
    + intros Hin. now right.
Qed.

Lemma ordered_insert_ascending (e : Demo.entry) (m : list Demo.entry) :
  Demo.ascending m -> Demo.ascending (Demo.ordered_insert e m).
Proof.
  unfold Demo.ascending. induction m as [| e' m IH]; simpl; intros Hm.
  - repeat constructor.
  - apply StronglySorted_inv in Hm as [Hm Hall]. unfold Demo.less.
    destruct (Z.ltb_spec (fst e) (fst e')) as [Hlt | Hge];
      [| destruct (Z.ltb_spec (fst e') (fst e)) as [Hlt' | Hge']]; simpl.
    + constructor; [constructor; assumption |].
      constructor; [assumption |].
      rewrite List.Forall_forall in Hall |- *. intros k Hk.
      specialize (Hall k Hk). lia.
    + constructor; [auto |].
      rewrite List.Forall_forall in Hall |- *. intros k Hk.
      destruct (ordered_insert_keys _ _ _ Hk) as [-> | Hin]; auto.
    + constructor; assumption.
Qed.

Lemma map_insert_keeps_ascending (alloc : CLASS_TYPE Demo.entry)
  (e : Demo.entry) (m m' : list Demo.entry) (w w' : world H Demo.entry) :
  Demo.ascending m ->
  Demo.map_insert heap node alloc e m w = (Returned m', w') ->
  Demo.ascending m'.
Proof.
  intros Hm. unfold Demo.map_insert.
  destruct (Demo.map_contains (fst e) m).
  - unfold ret. intros [= <- _]. exact Hm.
  - unfold bind.
    destruct (Demo.MyStlAllocator_allocate heap node alloc 1 NULL w)
      as [[ptr | exn |] w1]; try discriminate.
    unfold ret. intros [= <- _]. now apply ordered_insert_ascending.
Qed.

#[local] Arguments Demo.map_insert : simpl never.



End DemoProperties.

(** ** The properties at concrete instances *)

Lemma counting_tracks_outstanding {S : Type} (A : Native.Allocator S) :
  tracks_outstanding (counting A) snd.
Proof.
  split.
  - intros bytes [s count]; simpl.
    destruct (Native.malloc bytes s) as [ptr s']; simpl.
    destruct ptr; reflexivity.
  - intros p [s count] Hp; simpl.
    destruct p as [| q]; [contradiction | reflexivity].
Qed.


(** [MyStlAllocator<T>::max_size()] of the demo for a three-byte [T]:
    [0x80000000 / 3], rounded down, with either width of [std::size_t]. *)
Example max_size_of_demo_rounds_down :
  result_of (@Wrapper.max_size N Z (@MyDummyAllocator LP64 N bump_heap)
               (trivial_type N Z 3) mk_CLASS_TYPE roomy_world)
  = Returned 715827882
  /\ result_of (@Wrapper.max_size N Z (@MyDummyAllocator ILP32 N bump_heap)
                  (trivial_type N Z 3) mk_CLASS_TYPE roomy_world)
     = Returned 715827882
  /\ 715827882 * 3 < 0x80000000 < 715827883 * 3.
Proof. repeat split. Qed.

Lemma allocate_requests_n_times_sizeof_witness :
  3 * 4 <= @SIZE_MAX LP64
  /\ snd (native (state_after
       (@Wrapper.allocate LP64 _ Z (recording roomy_alloc) (int_type _)
          mk_CLASS_TYPE 3 NULL recorded_world)))
     = [CalledMalloc 12].
Proof.
  assert (Hfit : 3 * 4 <= @SIZE_MAX LP64) by (vm_compute; discriminate).
  split; [exact Hfit |].
  destruct (allocate_requests_n_times_sizeof (platform := LP64) roomy_alloc
              (int_type _) mk_CLASS_TYPE 3 NULL recorded_world)
    as (Hlog & _ & Hexact).
  rewrite Hlog, (Hexact Hfit). reflexivity.
Defined.

Lemma allocate_null_throws_bad_alloc_witness :
  result_of (@Wrapper.allocate LP64 _ Z failing_alloc (int_type _)
               mk_CLASS_TYPE 3 NULL failing_world) = Thrown bad_alloc
  /\ result_of (@Wrapper.allocate LP64 _ Z roomy_alloc (int_type _)
                  mk_CLASS_TYPE 3 NULL roomy_world) = Returned 4097.
Proof.
  split.
  - apply (proj1 (allocate_null_throws_bad_alloc (platform := LP64)
                    failing_alloc (int_type _) mk_CLASS_TYPE 3 NULL failing_world
                    NULL tt eq_refl)).
    reflexivity.
  - apply (proj2 (allocate_null_throws_bad_alloc (platform := LP64)
                    roomy_alloc (int_type _) mk_CLASS_TYPE 3 NULL roomy_world
                    4097 4109 eq_refl)).
    discriminate.
Defined.

Lemma lifecycle_members_leave_allocator_alone_witness :
  Wrapper.storage_member (T := Z) (Wrapper.call_max_size mk_CLASS_TYPE) = false
  /\ @Wrapper.invoke LP64 _ Z (recording roomy_alloc) (int_type _)
       (Wrapper.call_max_size mk_CLASS_TYPE) recorded_world = recorded_world.
Proof.
  split; [reflexivity |].
  destruct (lifecycle_members_leave_allocator_alone (platform := LP64)
              (recording roomy_alloc) (int_type _) nat mk_CLASS_TYPE mk_CLASS_TYPE
              mk_CLASS_TYPE recorded_world)
    as (_ & _ & _ & _ & _ & _ & Hframe).
  apply Hframe. reflexivity.
Defined.


Lemma construct_read_destroy_reconstruct_witness :
  let r1 :=
    @Wrapper.construct _ Z (int_type _) mk_CLASS_TYPE 4097 5%Z recorded_world
  in
  let r2 :=
    @Wrapper.destroy _ Z (int_type _) mk_CLASS_TYPE 4097 (state_after r1) in
  let r3 :=
    @Wrapper.construct _ Z (int_type _) mk_CLASS_TYPE 4097 9%Z
      (state_after r2) in
  read 4097 (state_after r1) = Some 5%Z
  /\ native (state_after r1) = (4096, [])
  /\ read 4097 (state_after r2) = None
  /\ native (state_after r2) = (4096, [])
  /\ result_of r3 = Returned tt
  /\ read 4097 (state_after r3) = Some 9%Z.
Proof.
  destruct (construct_read_destroy_reconstruct (recording roomy_alloc)
              (int_type _) mk_CLASS_TYPE 4097 5%Z 9%Z recorded_world
              (4096, []) (4096, []) (4096, []) eq_refl eq_refl eq_refl)
    as ((_ & Hs1 & Hr1) & (_ & Hs2 & Hr2) & (Hres & _ & Hr3) & _).
  repeat split; assumption.
Defined.


Lemma allocate_request_wraps_on_overflow_witness :
  let r := @Wrapper.allocate LP64 _ Z (recording roomy_alloc) (int64_type _)
             mk_CLASS_TYPE (2 ^ 61 + 1) NULL recorded_world in
  @SIZE_MAX LP64 / 8 < 2 ^ 61 + 1
  /\ 2 ^ 61 + 1 <= @SIZE_MAX LP64
  /\ snd (native (state_after r)) = [CalledMalloc 8]
  /\ 8 < (2 ^ 61 + 1) * 8
  /\ result_of (@Wrapper.max_size _ Z (recording roomy_alloc) (int64_type _)
                  mk_CLASS_TYPE recorded_world) = Returned (2 ^ 28)
  /\ result_of r = Returned 4097.
Proof.
  intros r.
  assert (Hn : @SIZE_MAX LP64 / 8 < 2 ^ 61 + 1) by reflexivity.
  split; [exact Hn |]. split; [vm_compute; discriminate |].
  destruct (allocate_request_wraps_on_overflow (platform := LP64) roomy_alloc
              (int64_type _) mk_CLASS_TYPE (2 ^ 61 + 1) NULL recorded_world Hn)
    as (Hlog & Hfewer & _ & Hres).
  split; [| split; [| split]].
  - subst r. rewrite Hlog. reflexivity.
  - exact Hfewer.
  - reflexivity.
  - subst r. apply Hres. discriminate.
Defined.

(** * Further properties of the members *)

Section Inversion.

Context {platform : Platform} {S T : Type}.

Lemma allocate_recording_unfold (A : Native.Allocator S)
  (VT : ValueType (S * list native_call) T) (this : CLASS_TYPE T)
  (n hint : N) (w : world (S * list native_call) T) :
  let bytes := size_mul n (N.pos (sizeof (S * list native_call) T)) in
  let m := Native.malloc bytes (fst (native w)) in
  @Wrapper.allocate platform _ T (recording A) VT this n hint w =
  (if NULL =? fst m then Thrown bad_alloc else Returned (fst m),
   World (snd m, snd (native w) ++ [CalledMalloc bytes]) (objects w)).
Proof.
  intros bytes m. rewrite allocate_unfold. fold bytes. subst m.
  destruct (native w) as [s log]; simpl.
  destruct (Native.malloc bytes s) as [q s']; reflexivity.
Qed.

Lemma allocate_returned_inv (A : Native.Allocator S) (VT : ValueType S T)
  (this : CLASS_TYPE T) (n hint ptr : N) (w w1 : world S T) :
  Wrapper.allocate this n hint w = (Returned ptr, w1) ->
  ptr <> NULL
  /\ Native.malloc (size_mul n (N.pos (sizeof S T))) (native w)
     = (ptr, native w1)
  /\ objects w1 = objects w.
Proof.
  rewrite allocate_unfold.
  destruct (Native.malloc _ (native w)) as [q s]; simpl.
  destruct q as [| q]; simpl; [discriminate |].
  intros [= <- <-]. repeat split. discriminate.
Qed.

Lemma release_restores_count (A : Native.Allocator S) (VT : ValueType S T)
  (outstanding : S -> Z) (this : CLASS_TYPE T) (n hint ptr : N)
  (w w1 : world S T) :
  tracks_outstanding A outstanding ->
  Wrapper.allocate this n hint w = (Returned ptr, w1) ->
  outstanding (native w1) = (outstanding (native w) + 1)%Z
  /\ outstanding (Native.free ptr (native w1)) = outstanding (native w).
Proof.
  intros [Hmalloc Hfree] Halloc.
  apply allocate_returned_inv in Halloc as (Hptr & Hm & _).
  specialize (Hmalloc (size_mul n (N.pos (sizeof S T))) (native w)).
  rewrite Hm in Hmalloc; simpl in Hmalloc.
  destruct ptr as [| q]; [contradiction |]. simpl in Hmalloc.
  rewrite Hfree by discriminate. lia.
Qed.

End Inversion.

Section MemberProperties.

Context {platform : Platform} {S T : Type}.

Local Open Scope call_scope.

(** [allocate] (lines 89-93) never hands out the null pointer: a pointer it
    returns is the one [malloc] gave and is not null, the only exception it
    throws is [std::bad_alloc], thrown when [malloc] gave the null pointer,
    and it brings no object to life. *)
Theorem allocate_never_returns_null (A : Native.Allocator S)
  (VT : ValueType S T) (this : CLASS_TYPE T) (n hint : N) (w : world S T) :
  let m := Native.malloc (size_mul n (N.pos (sizeof S T))) (native w) in
  let r := Wrapper.allocate this n hint w in
  match result_of r with
  | Returned p => p <> NULL /\ p = fst m
  | Thrown e => e = bad_alloc /\ fst m = NULL
  | Undefined => False
  end
  /\ objects (state_after r) = objects w.
Proof.
  intros m r. subst r. rewrite allocate_unfold. fold m.
  unfold result_of, state_after; simpl.
  split; [| reflexivity].
  destruct (fst m) as [| q]; simpl; [split; reflexivity |].
  split; [discriminate | reflexivity].
Qed.

(** [allocate] and [max_size] (lines 89-99) agree below the limit: when the
    native [max_size()] is a [size_type] value, a count [n] of at most
    [max_size()] is requested as [n * sizeof(T)] bytes, with no wrap-around,
    and the request does not exceed the native [max_size()]. *)
Theorem allocate_within_max_size (A : Native.Allocator S)
  (VT : ValueType (S * list native_call) T)
  (this : CLASS_TYPE T) (n hint limit : N)
  (w : world (S * list native_call) T) :
  let size := N.pos (sizeof (S * list native_call) T) in
  let r := @Wrapper.allocate platform _ T (recording A) VT this n hint w in
  Native.max_size (fst (native w)) <= SIZE_MAX ->
  result_of (@Wrapper.max_size _ T (recording A) VT this w) = Returned limit ->
  n <= limit ->
  snd (native (state_after r)) = snd (native w) ++ [CalledMalloc (n * size)]
  /\ n * size <= Native.max_size (fst (native w)).
Proof.
  intros size r Hmax Hlimit Hn.
  unfold Wrapper.max_size, bind, Wrapper.native_max_size, result_of in Hlimit.
  simpl in Hlimit. injection Hlimit as Hlimit. fold size in Hlimit.
  subst r. rewrite allocate_recording_unfold. fold size.
  unfold state_after; simpl.
  destruct (native w) as [s log]; simpl in *.
  assert (Hfit : n * size <= Native.max_size s).
  { pose proof (N.Div0.mul_div_le (Native.max_size s) size). nia. }
  split; [| exact Hfit].
  rewrite size_mul_exact by lia. reflexivity.
Qed.

(** [allocate] does not enforce [max_size()] (lines 89-99): a count above
    [max_size()] whose bytes still fit [size_type] is requested in full,
    for more bytes than the native [max_size()], and [allocate] returns the
    pointer [malloc] gives for it. *)
Theorem allocate_beyond_max_size_is_forwarded (A : Native.Allocator S)
  (VT : ValueType (S * list native_call) T)
  (this : CLASS_TYPE T) (n hint limit : N)
  (w : world (S * list native_call) T) :
  let size := N.pos (sizeof (S * list native_call) T) in
  let r := @Wrapper.allocate platform _ T (recording A) VT this n hint w in
  let ptr := fst (Native.malloc (n * size) (fst (native w))) in
  result_of (@Wrapper.max_size _ T (recording A) VT this w) = Returned limit ->
  limit < n ->
  n * size <= SIZE_MAX ->
  snd (native (state_after r)) = snd (native w) ++ [CalledMalloc (n * size)]
  /\ Native.max_size (fst (native w)) < n * size
  /\ (ptr <> NULL -> result_of r = Returned ptr).
Proof.
  intros size r ptr Hlimit Hn Hfit.
  unfold Wrapper.max_size, bind, Wrapper.native_max_size, result_of in Hlimit.
  simpl in Hlimit. injection Hlimit as Hlimit. fold size in Hlimit.
  subst r ptr. rewrite allocate_recording_unfold. fold size.
  rewrite (size_mul_exact _ _ Hfit).
  unfold result_of, state_after; simpl.
  destruct (native w) as [s log]; simpl in *.
  split; [reflexivity |]. split.
  - pose proof (N.mul_succ_div_gt (Native.max_size s) size
                  ltac:(subst size; lia)).
    nia.
  - destruct (fst (Native.malloc (n * size) s)) as [| q];
      [contradiction | reflexivity].
Qed.

(** A request for no bytes (lines 89-93): when [n * sizeof(T)] is a multiple
    of [2 ^ size_bits], as it is for [n = 0], [allocate(n)] asks [malloc] for
    zero bytes, does what [allocate(0)] does, and throws [std::bad_alloc] if
    [malloc] answers a request for zero bytes with the null pointer. *)
Theorem allocate_zero_bytes (A : Native.Allocator S)
  (VT : ValueType (S * list native_call) T)
  (this : CLASS_TYPE T) (n hint : N) (w : world (S * list native_call) T) :
  let size := N.pos (sizeof (S * list native_call) T) in
  let r := @Wrapper.allocate platform _ T (recording A) VT this n hint w in
  (n * size) mod 2 ^ N.pos size_bits = 0 ->
  r = @Wrapper.allocate platform _ T (recording A) VT this 0 hint w
  /\ snd (native (state_after r)) = snd (native w) ++ [CalledMalloc 0]
  /\ (fst (Native.malloc 0 (fst (native w))) = NULL ->
      result_of r = Thrown bad_alloc).
Proof.
  intros size r Hzero. subst r. rewrite !allocate_recording_unfold. fold size.
  assert (E : size_mul n size = 0) by exact Hzero.
  assert (E0 : size_mul 0 size = 0).
  { unfold size_mul, size_wrap. rewrite N.mul_0_l. apply N.Div0.mod_0_l. }
  rewrite E, E0. split; [reflexivity |].
  unfold result_of, state_after; simpl.
  split; [reflexivity |]. intros ->. reflexivity.
Qed.



(** A copy constructor that throws (lines 89-102): when [allocate] has
    returned storage and the copy constructor run by [construct] throws
    without touching the count, the exception leaves [construct], no object
    comes to life, and the storage is still outstanding: the wrapper does not
    give it back. *)
Theorem construct_failure_keeps_storage (A : Native.Allocator S)
  (VT : ValueType S T) (outstanding : S -> Z) (this : CLASS_TYPE T)
  (n hint ptr : N) (v : T) (e : exception) (w w1 : world S T) (s1 : S) :
  tracks_outstanding A outstanding ->
  Wrapper.allocate this n hint w = (Returned ptr, w1) ->
  copy_constructor v (native w1) = (Thrown e, s1) ->
  outstanding s1 = outstanding (native w1) ->
  let r := (p <- Wrapper.allocate this n hint ;;
            Wrapper.construct this p v) w in
  result_of r = Thrown e
  /\ objects (state_after r) = objects w
  /\ outstanding (native (state_after r)) = (outstanding (native w) + 1)%Z.
Proof.
  intros Htracks Halloc Hcopy Hsame r.
  destruct (release_restores_count A VT outstanding this n hint ptr w w1
              Htracks Halloc) as [Hcount _].
  destruct (allocate_returned_inv A VT this n hint ptr w w1 Halloc)
    as (_ & _ & Hobjects).
  assert (Er : r = (Thrown e, World s1 (objects w1))).
  { subst r. unfold bind at 1. rewrite Halloc.
    unfold Wrapper.construct, bind, Wrapper.user_code.
    rewrite Hcopy. reflexivity. }
  rewrite Er. unfold result_of, state_after; simpl.
  repeat split; congruence.
Qed.

End MemberProperties.

(** * Further properties of the demo *)

Section DemoFailure.

Context {platform : Platform} {H : Type} (heap : libc.Heap H).

Local Open Scope call_scope.

#[local] Arguments Demo.map_insert : simpl never.



(** [MyStlAllocator<T>::max_size()] (demo.cpp, lines 23-32): whatever the
    state of the heap, it is [0x80000000 / sizeof(T)] where [std::size_t]
    has 32 bits or more, and 0 where it has fewer, the literal then being
    converted to 0. *)
Theorem demo_max_size_value {T : Type} (VT : ValueType H T)
  (this : CLASS_TYPE T) (w : world H T) :
  (32 <= N.pos size_bits ->
   @Wrapper.max_size H T (MyDummyAllocator heap) VT this w =
   (Returned (0x80000000 / N.pos (sizeof H T)), w))
  /\ (N.pos size_bits < 32 ->
      @Wrapper.max_size H T (MyDummyAllocator heap) VT this w =
      (Returned 0, w)).
Proof.
  unfold Wrapper.max_size, bind, Wrapper.native_max_size, ret; simpl.
  unfold size_wrap. change 0x80000000 with (2 ^ 31).
  split; intros Hbits.
  - rewrite N.mod_small; [reflexivity |].
    apply N.pow_lt_mono_r; lia.
  - assert (E : 2 ^ 31 = 2 ^ (31 - N.pos size_bits) * 2 ^ N.pos size_bits).
    { rewrite <- N.pow_add_r. f_equal. lia. }
    rewrite E, N.Div0.mod_mul, N.Div0.div_0_l. reflexivity.
Qed.

End DemoFailure.

(** ** The further properties at concrete instances *)

Lemma allocate_within_max_size_witness :
  snd (native (state_after
    (@Wrapper.allocate LP64 _ Z (recording roomy_alloc) (int_type _)
       mk_CLASS_TYPE (2 ^ 29) NULL recorded_world)))
  = [CalledMalloc 0x80000000].
Proof.
  destruct (allocate_within_max_size (platform := LP64) roomy_alloc
              (int_type _) mk_CLASS_TYPE (2 ^ 29) NULL (2 ^ 29) recorded_world)
    as [Hlog _].
  - vm_compute; discriminate.
  - reflexivity.
  - vm_compute; discriminate.
  - rewrite Hlog. reflexivity.
Defined.

Lemma allocate_beyond_max_size_is_forwarded_witness :
  let r := @Wrapper.allocate LP64 _ Z (recording roomy_alloc) (int_type _)
             mk_CLASS_TYPE (2 ^ 29 + 1) NULL recorded_world in
  result_of (@Wrapper.max_size _ Z (recording roomy_alloc) (int_type _)
               mk_CLASS_TYPE recorded_world) = Returned (2 ^ 29)
  /\ snd (native (state_after r)) = [CalledMalloc (0x80000000 + 4)]
  /\ result_of r = Returned 4097.
Proof.
  intros r. split; [reflexivity |].
  destruct (allocate_beyond_max_size_is_forwarded (platform := LP64)
              roomy_alloc (int_type _) mk_CLASS_TYPE (2 ^ 29 + 1) NULL (2 ^ 29)
              recorded_world)
    as (Hlog & _ & Hres).
  - reflexivity.
  - reflexivity.
  - vm_compute; discriminate.
  - split.
    + subst r. rewrite Hlog. reflexivity.
    + subst r. apply Hres. discriminate.
Defined.

Lemma allocate_zero_bytes_witness :
  let A := recording (@MyDummyAllocator LP64 N zero_null_heap) in
  (2 ^ 61 * 8) mod 2 ^ 64 = 0
  /\ snd (native (state_after
       (@Wrapper.allocate LP64 _ Z A (int64_type _) mk_CLASS_TYPE (2 ^ 61)
          NULL recorded_world))) = [CalledMalloc 0]
  /\ result_of (@Wrapper.allocate LP64 _ Z A (int64_type _) mk_CLASS_TYPE
                  (2 ^ 61) NULL recorded_world) = Thrown bad_alloc
  /\ result_of (@Wrapper.allocate LP64 _ Z A (int64_type _) mk_CLASS_TYPE
                  0 NULL recorded_world) = Thrown bad_alloc.
Proof.
  intros A. subst A.
  assert (Hzero : (2 ^ 61 * 8) mod 2 ^ 64 = 0) by reflexivity.
  split; [exact Hzero |].
  destruct (allocate_zero_bytes (platform := LP64)
              (@MyDummyAllocator LP64 N zero_null_heap) (int64_type _)
              mk_CLASS_TYPE (2 ^ 61) NULL recorded_world Hzero)
    as (Hsame & Hlog & Hthrow).
  split; [rewrite Hlog; reflexivity |].
  split; [apply Hthrow; reflexivity |].
  rewrite <- Hsame. apply Hthrow. reflexivity.
Defined.



Lemma construct_failure_keeps_storage_witness :
  let r := (p <- @Wrapper.allocate LP64 _ Z (counting roomy_alloc)
                   (failing_copy_type _ Z 4) mk_CLASS_TYPE 3 NULL ;;
            @Wrapper.construct _ Z (failing_copy_type _ Z 4) mk_CLASS_TYPE
              p 5%Z)%call counted_world in
  result_of r = Thrown bad_alloc
  /\ objects (state_after r) = ∅
  /\ snd (native (state_after r)) = 1%Z.
Proof.
  apply (construct_failure_keeps_storage (platform := LP64)
           (counting roomy_alloc) (failing_copy_type _ Z 4) snd mk_CLASS_TYPE
           3 NULL 4097 5%Z bad_alloc counted_world (World (4109, 1%Z) ∅)
           (4109, 1%Z) (counting_tracks_outstanding roomy_alloc)
           eq_refl eq_refl eq_refl).
Defined.

Lemma demo_max_size_value_witness :
  @Wrapper.max_size N Z (@MyDummyAllocator LP64 N bump_heap) (int_type _)
    mk_CLASS_TYPE roomy_world = (Returned (2 ^ 29), roomy_world)
  /\ @Wrapper.max_size N Z (@MyDummyAllocator LP16 N bump_heap) (int_type _)
       mk_CLASS_TYPE roomy_world = (Returned 0, roomy_world).
Proof.
  split.
  - apply (proj1 (demo_max_size_value (platform := LP64) bump_heap
                    (int_type _) mk_CLASS_TYPE roomy_world)).
    vm_compute; discriminate.
  - apply (proj2 (demo_max_size_value (platform := LP16) bump_heap
                    (int_type _) mk_CLASS_TYPE roomy_world)).
    reflexivity.
Defined.
